(** * movie-store: the movie API and the ingestion worker

    A shallow embedding of the Python services under [src/services]:
    - [shared/models.py]      the [Movie] schema and its validators,
    - [shared/database.py]    [Database] and the [movies] table,
    - [shared/repositories.py] [MovieRepository],
    - [api/cache.py]          [CacheService] over Redis,
    - [api/services.py]       [MovieService] (cache-aside reads, writes),
    - [api/main.py]           the [/health] endpoint,
    - [data_processor/main.py] [DataProcessor], the queue worker.

    A Python [try/except] becomes an [Outcome]; mutable objects become
    explicit state passed in and out; each operation is modelled running on
    its own, without another task interleaved at its [await]s.

    What the sources call and do not contain is taken as a parameter, and
    every theorem holds for each value of it: Python's case mapping
    [str.lower] ([Unicode]) and the database engine behind a session
    ([Engine]).  A Python [str] is held as its UTF-8 encoding, and [len]
    counts its characters.  A Redis client is a keyed store of JSON
    documents; pydantic construction runs the declared field constraints and
    validators ([provider_metadata] declares a default and a default factory
    together: the factory is taken).

    [Database.get_session] is written as a coroutine function, and each of
    its callers enters [async with self.database.get_session()] without
    awaiting the call.  This is modelled as written: the context expression
    is a coroutine object, which is not an asynchronous context manager, so
    the statement raises and its body does not run. *)

From Stdlib Require Import ZArith Ascii String.
From stdpp Require Import base option list strings gmap sorting.

Local Open Scope string_scope.
Local Open Scope Z_scope.

(** ** Python helpers *)

Module Py.

(** What a call that may raise produced. *)
Inductive Outcome (A : Type) : Type :=
| Returned (a : A)
| Raised (msg : string).
Arguments Returned {A} a.
Arguments Raised {A} msg.

(** [needle in hay] on strings. *)
Fixpoint contains (needle hay : string) : bool :=
  String.prefix needle hay
  || match hay with
     | EmptyString => false
     | String _ rest => contains needle rest
     end.

(** [sep.join(parts)] *)
Fixpoint join (sep : string) (parts : list string) : string :=
  match parts with
  | [] => ""
  | [p] => p
  | p :: rest => p +:+ sep +:+ join sep rest
  end.

(** [len(v) != len(set(v))]: some element occurs twice. *)
Fixpoint has_duplicates {A} `{EqDecision A} (v : list A) : bool :=
  match v with
  | [] => false
  | x :: rest => bool_decide (x ∈ rest) || has_duplicates rest
  end.

(** A byte of the form [10xxxxxx] continues a character of the encoding. *)
Definition is_continuation (a : ascii) : bool :=
  let n := nat_of_ascii a in (128 <=? n)%nat && (n <? 192)%nat.

(** [len(s)]: the number of characters. *)
Definition len (s : string) : nat :=
  length (List.filter (fun a => negb (is_continuation a)) (list_ascii_of_string s)).

(** Python's Unicode tables, as the sources use them: [s.lower()], the case
    mapping, and the match of the pattern [^tt\d{7,8}$], whose [\d] is any
    decimal digit. *)
Class Unicode := {
  lower : string -> string;
  imdb_pattern : string -> bool
}.

End Py.

(** ** shared/models.py: the Movie schema *)

Module Models.
Import Py.

Inductive Genre :=
| ACTION | ADVENTURE | ANIMATION | BIOGRAPHY | COMEDY | CRIME | DOCUMENTARY
| DRAMA | FAMILY | FANTASY | HISTORY | HORROR | MUSIC | MUSICAL | MYSTERY
| ROMANCE | SCI_FI | SPORT | THRILLER | WAR | WESTERN.

Inductive Rating := G | PG | PG_13 | R | NC_17 | NR.

#[global] Instance Genre_eq_dec : EqDecision Genre.
Proof. solve_decision. Defined.
#[global] Instance Rating_eq_dec : EqDecision Rating.
Proof. solve_decision. Defined.

Definition all_genres : list Genre :=
  [ ACTION; ADVENTURE; ANIMATION; BIOGRAPHY; COMEDY; CRIME; DOCUMENTARY;
    DRAMA; FAMILY; FANTASY; HISTORY; HORROR; MUSIC; MUSICAL; MYSTERY;
    ROMANCE; SCI_FI; SPORT; THRILLER; WAR; WESTERN ].

Definition all_ratings : list Rating := [ G; PG; PG_13; R; NC_17; NR ].

(** The string value of each member ([use_enum_values = True] makes these the
    values that [dict()] and the table carry). *)
Definition Genre_value (g : Genre) : string :=
  match g with
  | ACTION => "Action" | ADVENTURE => "Adventure" | ANIMATION => "Animation"
  | BIOGRAPHY => "Biography" | COMEDY => "Comedy" | CRIME => "Crime"
  | DOCUMENTARY => "Documentary" | DRAMA => "Drama" | FAMILY => "Family"
  | FANTASY => "Fantasy" | HISTORY => "History" | HORROR => "Horror"
  | MUSIC => "Music" | MUSICAL => "Musical" | MYSTERY => "Mystery"
  | ROMANCE => "Romance" | SCI_FI => "Sci-Fi" | SPORT => "Sport"
  | THRILLER => "Thriller" | WAR => "War" | WESTERN => "Western"
  end.

Definition Rating_value (r : Rating) : string :=
  match r with
  | G => "G" | PG => "PG" | PG_13 => "PG-13" | R => "R" | NC_17 => "NC-17"
  | NR => "NR"
  end.

(** Enum lookup by value: [Genre(s)], [Rating(s)]. *)
Definition Genre_of_value (s : string) : option Genre :=
  List.find (fun g => String.eqb (Genre_value g) s) all_genres.

Definition Rating_of_value (s : string) : option Rating :=
  List.find (fun r => String.eqb (Rating_value r) s) all_ratings.

Record CastMember := {
  name : string;
  role : string;
  character : option string
}.

#[global] Instance CastMember_eq_dec : EqDecision CastMember.
Proof. solve_decision. Defined.

(** A validated [Movie].  Timestamps are microseconds since the epoch. *)
Record Movie := {
  id : string;
  title : string;
  year : Z;
  genre : list Genre;
  cast : option (list CastMember);
  director : option string;
  runtime_minutes : option Z;
  rating : option Rating;
  imdb_id : option string;
  budget_usd : option Z;
  box_office_usd : option Z;
  synopsis : option string;
  poster_url : option string;
  trailer_url : option string;
  provider_metadata : option (list (string * string));
  created_at : option Z;
  updated_at : option Z
}.

(** A keyword of the [Movie] constructor whose default is not [None]: the
    key can be absent, explicitly [null], or carry a value. *)
Inductive Supplied (A : Type) : Type :=
| Missing
| Null
| Given (a : A).
Arguments Missing {A}.
Arguments Null {A}.
Arguments Given {A} a.

(** The keyword arguments [Movie] is built from: a decoded JSON object (an
    ingested file, a cache entry) or the columns of a row.  Enum fields are
    still plain strings; for the other optional fields an absent key and
    [null] both read [None]. *)
Record MovieArgs := {
  arg_id : option string;
  arg_title : option string;
  arg_year : option Z;
  arg_genre : option (list string);
  arg_cast : Supplied (list CastMember);
  arg_director : option string;
  arg_runtime_minutes : option Z;
  arg_rating : option string;
  arg_imdb_id : option string;
  arg_budget_usd : option Z;
  arg_box_office_usd : option Z;
  arg_synopsis : option string;
  arg_poster_url : option string;
  arg_trailer_url : option string;
  arg_provider_metadata : Supplied (list (string * string));
  arg_created_at : option Z;
  arg_updated_at : option Z
}.

(** [Field(min_length=lo, max_length=hi)] *)
Definition len_in (lo hi : nat) (s : string) : bool :=
  (lo <=? len s)%nat && (len s <=? hi)%nat.

(** [Field(ge=lo, le=hi)] *)
Definition in_range (lo hi : Z) (n : Z) : bool := ((lo <=? n) && (n <=? hi))%Z.

(** A constraint on an optional field is skipped on [None]. *)
Definition opt_ok {A} (p : A -> bool) (o : option A) : bool :=
  match o with
  | None => true
  | Some a => p a
  end.

Definition CastMember_ok (m : CastMember) : bool :=
  len_in 1 200 (name m) && len_in 1 200 (role m)
  && opt_ok (len_in 0 200) (character m).

(** [@validator('genre') unique_genres]: [true] when the validator raises. *)
Definition unique_genres_raises (v : list Genre) : bool :=
  has_duplicates v.

Section Validation.
Context {U : Unicode}.

(** [@validator('cast') unique_cast_names]: [true] when it raises. *)
Definition unique_cast_names_raises (v : option (list CastMember)) : bool :=
  match v with
  | None | Some [] => false
  | Some members => has_duplicates ((fun member => lower (name member)) <$> members)
  end.

(** Field constraints and validators, on the converted values. *)
Definition Movie_constraints (m : Movie) : bool :=
  len_in 1 100 (id m)
  && len_in 1 500 (title m)
  && in_range 1888 2030 (year m)
  && ((1 <=? length (genre m))%nat && (length (genre m) <=? 5)%nat)
  && negb (unique_genres_raises (genre m))
  && opt_ok (fun members => (length members <=? 100)%nat && forallb CastMember_ok members)
       (cast m)
  && negb (unique_cast_names_raises (cast m))
  && opt_ok (len_in 0 200) (director m)
  && opt_ok (in_range 1 600) (runtime_minutes m)
  && opt_ok imdb_pattern (imdb_id m)
  && opt_ok (in_range 0 1000000000) (budget_usd m)
  && opt_ok (in_range 0 10000000000) (box_office_usd m)
  && opt_ok (len_in 0 2000) (synopsis m)
  && opt_ok (len_in 0 500) (poster_url m)
  && opt_ok (len_in 0 500) (trailer_url m).

End Validation.

(** Type conversion of the keywords: required fields must be present, enum
    values must name a member, absent keys take their declared default. *)
Definition Movie_convert (kw : MovieArgs) : option Movie :=
  id ← arg_id kw;
  title ← arg_title kw;
  year ← arg_year kw;
  genre_values ← arg_genre kw;
  genre ← mapM Genre_of_value genre_values;
  rating ← match arg_rating kw with
           | None => Some None
           | Some s => Some <$> Rating_of_value s
           end;
  Some {|
    id := id; title := title; year := year; genre := genre;
    cast := match arg_cast kw with
            | Missing => Some []
            | Null => None
            | Given members => Some members
            end;
    director := arg_director kw;
    runtime_minutes := arg_runtime_minutes kw;
    rating := rating;
    imdb_id := arg_imdb_id kw;
    budget_usd := arg_budget_usd kw;
    box_office_usd := arg_box_office_usd kw;
    synopsis := arg_synopsis kw;
    poster_url := arg_poster_url kw;
    trailer_url := arg_trailer_url kw;
    provider_metadata := match arg_provider_metadata kw with
                         | Missing => Some []
                         | Null => None
                         | Given d => Some d
                         end;
    created_at := arg_created_at kw;
    updated_at := arg_updated_at kw
  |}.

(** The [Movie] constructor on keywords [kw]; [None] is [ValidationError]. *)
Definition Movie_init {U : Unicode} (kw : MovieArgs) : option Movie :=
  m ← Movie_convert kw;
  if Movie_constraints m then Some m else None.

Definition supplied {A} (o : option A) : Supplied A :=
  match o with
  | None => Null
  | Some a => Given a
  end.

(** [movie.dict()]: every key present, enum members as their values. *)
Definition dict (m : Movie) : MovieArgs := {|
  arg_id := Some (id m);
  arg_title := Some (title m);
  arg_year := Some (year m);
  arg_genre := Some ((Genre_value <$> genre m));
  arg_cast := supplied (cast m);
  arg_director := director m;
  arg_runtime_minutes := runtime_minutes m;
  arg_rating := Rating_value <$> rating m;
  arg_imdb_id := imdb_id m;
  arg_budget_usd := budget_usd m;
  arg_box_office_usd := box_office_usd m;
  arg_synopsis := synopsis m;
  arg_poster_url := poster_url m;
  arg_trailer_url := trailer_url m;
  arg_provider_metadata := supplied (provider_metadata m);
  arg_created_at := created_at m;
  arg_updated_at := updated_at m
|}.

End Models.

(** ** shared/database.py: Database and the movies table *)

Module Database.
Import Py Models.

(** A row of [movies], with the column types of [MovieModel]. *)
Record MovieModel := {
  col_id : string;
  col_title : string;
  col_year : Z;
  col_genre : list string;
  col_cast : option (list CastMember);
  col_director : option string;
  col_runtime_minutes : option Z;
  col_rating : option string;
  col_imdb_id : option string;
  col_budget_usd : option Z;
  col_box_office_usd : option Z;
  col_synopsis : option string;
  col_poster_url : option string;
  col_trailer_url : option string;
  col_provider_metadata : option (list (string * string));
  col_created_at : Z;
  col_updated_at : Z
}.

(** [Database]: whether [connect()] has set [session_factory], and the rows
    the table holds. *)
Record Database := {
  session_factory : bool;
  movies : list MovieModel
}.

(** *** Statements over the database *)

(** A computation that may change the database and may raise. *)
Definition M (A : Type) : Type := Database -> Database * Outcome A.

Definition ret {A} (a : A) : M A := fun db => (db, Returned a).

Definition raise {A} (msg : string) : M A := fun db => (db, Raised msg).

Definition bind {A B} (m : M A) (f : A -> M B) : M B :=
  fun db =>
    match m db with
    | (db', Returned a) => f a db'
    | (db', Raised e) => (db', Raised e)
    end.

Notation "'let*' x ':=' m 'in' f" := (bind m (fun x => f))
  (at level 10, x name, m at level 100, f at level 200).

(** [try: body except Exception: return handler] *)
Definition try_ {A} (body : M A) (handler : A) : Database -> Database * A :=
  fun db =>
    match body db with
    | (db', Returned a) => (db', a)
    | (db', Raised _) => (db', handler)
    end.

(** A [WHERE] condition of [search_movies], as the expression the
    repository builds. *)
Inductive Condition :=
| title_ilike (pattern : string)         (* MovieModel.title.ilike(pattern) *)
| year_eq (year : Z)                     (* MovieModel.year == year *)
| genre_overlap (genres : list string)   (* MovieModel.genre.overlap(genres) *)
| director_ilike (pattern : string)
| rating_eq (rating : string)
| cast_astext_ilike (pattern : string).  (* MovieModel.cast.astext.ilike(pattern) *)

(** The database engine behind an entered session: what each statement of
    the repository does to the table and gives back.  The five statements
    that write are followed by their [commit] (and [refresh]). *)
Class Engine := {
  (** [session.execute("SELECT 1")] and [.scalar()] *)
  select_1 : M Z;
  (** [select(MovieModel).where(MovieModel.id == movie_id)] and
      [.scalar_one_or_none()] *)
  select_by_id : string -> M (option MovieModel);
  (** [session.add(MovieModel(...))] with the keywords of the movie but its
      two timestamps, [commit], [refresh]: the row as stored *)
  add : Movie -> M MovieModel;
  (** [commit] and [refresh] of a row whose attributes were set *)
  flush : MovieModel -> M MovieModel;
  (** [session.delete(db_movie)] and [commit] *)
  delete : MovieModel -> M unit;
  (** [select(func.count(MovieModel.id))] under the conditions, [.scalar()] *)
  select_count : list Condition -> M (option Z);
  (** [select(MovieModel)] under the conditions, ordered by year descending
      and title, with [offset] and [limit]; [.scalars().all()] *)
  select_page : list Condition -> Z -> Z -> M (list MovieModel)
}.

(** *** Sessions *)

Inductive AsyncSession := session.

(** What the context expression of an [async with] evaluates to: an
    asynchronous context manager, which the statement enters, or the
    coroutine object of a call that was not awaited. *)
Inductive ContextExpression (A : Type) : Type :=
| context_manager (entered : A)
| coroutine (awaited : Outcome A).
Arguments context_manager {A} entered.
Arguments coroutine {A} awaited.

(** [async with expression as x: body].  A coroutine object has no
    [__aenter__]: the statement raises before the body. *)
Definition async_with {A B} (expression : ContextExpression A) (body : A -> M B) : M B :=
  match expression with
  | context_manager entered => body entered
  | coroutine _ => raise "TypeError"
  end.

(** [self.get_session()]: [get_session] is declared [async def], so the call
    gives its coroutine object; [awaited] is what awaiting it would give. *)
Definition get_session (db : Database) : ContextExpression AsyncSession :=
  coroutine (if session_factory db
             then Returned session
             else Raised "Database not connected").

(** [health_check] *)
Definition health_check {E : Engine} (db : Database) : bool :=
  (try_ (fun db => async_with (get_session db)
                     (fun _ => let* result := select_1 in ret (result =? 1)) db)
        false db).2.

End Database.

(** ** shared/repositories.py: MovieRepository *)

Module Repositories.
Import Py Models Database.

Section Repository.
Context {U : Unicode} {E : Engine}.

(** The [setattr] loop of [update_movie]: every column of [db_movie] but
    [id], [created_at] and [updated_at] takes the value in [movie]. *)
Definition set_columns (db_movie : MovieModel) (movie : Movie) : MovieModel := {|
  col_id := col_id db_movie;
  col_title := title movie;
  col_year := year movie;
  col_genre := (Genre_value <$> genre movie);
  col_cast := cast movie;
  col_director := director movie;
  col_runtime_minutes := runtime_minutes movie;
  col_rating := Rating_value <$> rating movie;
  col_imdb_id := imdb_id movie;
  col_budget_usd := budget_usd movie;
  col_box_office_usd := box_office_usd movie;
  col_synopsis := synopsis movie;
  col_poster_url := poster_url movie;
  col_trailer_url := trailer_url movie;
  col_provider_metadata := provider_metadata movie;
  col_created_at := col_created_at db_movie;
  col_updated_at := col_updated_at db_movie
|}.

(** [_model_to_movie]: builds a [Movie] from the columns, so the schema is
    checked again; [cast] and [provider_metadata] read [or []] and [or {}]. *)
Definition _model_to_movie (db_movie : MovieModel) : M Movie :=
  match Movie_init {|
    arg_id := Some (col_id db_movie);
    arg_title := Some (col_title db_movie);
    arg_year := Some (col_year db_movie);
    arg_genre := Some (col_genre db_movie);
    arg_cast := Given (default [] (col_cast db_movie));
    arg_director := col_director db_movie;
    arg_runtime_minutes := col_runtime_minutes db_movie;
    arg_rating := col_rating db_movie;
    arg_imdb_id := col_imdb_id db_movie;
    arg_budget_usd := col_budget_usd db_movie;
    arg_box_office_usd := col_box_office_usd db_movie;
    arg_synopsis := col_synopsis db_movie;
    arg_poster_url := col_poster_url db_movie;
    arg_trailer_url := col_trailer_url db_movie;
    arg_provider_metadata := Given (default [] (col_provider_metadata db_movie));
    arg_created_at := Some (col_created_at db_movie);
    arg_updated_at := Some (col_updated_at db_movie)
  |} with
  | Some movie => ret movie
  | None => raise "ValidationError"
  end.

(** [create_movie] *)
Definition create_movie (db : Database) (movie : Movie) : Database * option Movie :=
  try_ (fun db =>
          async_with (get_session db)
            (fun _ =>
               let* db_movie := add movie in
               let* created := _model_to_movie db_movie in
               ret (Some created)) db)
       None db.

(** [get_movie_by_id] *)
Definition get_movie_by_id (db : Database) (movie_id : string) : option Movie :=
  (try_ (fun db =>
           async_with (get_session db)
             (fun _ =>
                let* db_movie := select_by_id movie_id in
                match db_movie with
                | Some row => let* found := _model_to_movie row in ret (Some found)
                | None => ret None
                end) db)
        None db).2.

(** [update_movie] *)
Definition update_movie (db : Database) (movie : Movie) : Database * option Movie :=
  try_ (fun db =>
          async_with (get_session db)
            (fun _ =>
               let* db_movie := select_by_id (id movie) in
               match db_movie with
               | None => ret None
               | Some row =>
                   let* stored := flush (set_columns row movie) in
                   let* updated := _model_to_movie stored in
                   ret (Some updated)
               end) db)
       None db.

(** [delete_movie] *)
Definition delete_movie (db : Database) (movie_id : string) : Database * bool :=
  try_ (fun db =>
          async_with (get_session db)
            (fun _ =>
               let* db_movie := select_by_id movie_id in
               match db_movie with
               | None => ret false
               | Some row => let* _ := delete row in ret true
               end) db)
       false db.

(** The [filters] dictionary: [None] is an absent key. *)
Record Filters := {
  f_title : option string;
  f_year : option Z;
  f_genre : option (list string);
  f_director : option string;
  f_rating : option string;
  f_cast : option string
}.

(** [if filters.get(key)]: the value when present and truthy. *)
Definition truthy_str (o : option string) : option string :=
  match o with
  | Some EmptyString | None => None
  | Some s => Some s
  end.

Definition truthy_int (o : option Z) : option Z :=
  match o with
  | Some 0 | None => None
  | Some n => Some n
  end.

Definition truthy_list {A} (o : option (list A)) : option (list A) :=
  match o with
  | Some [] | None => None
  | Some l => Some l
  end.

(** The [conditions] list built from the filters, in source order. *)
Definition conditions (filters : Filters) : list Condition :=
  match truthy_str (f_title filters) with
  | Some t => [title_ilike ("%" +:+ t +:+ "%")]
  | None => []
  end
  ++ match truthy_int (f_year filters) with
     | Some y => [year_eq y]
     | None => []
     end
  ++ match truthy_list (f_genre filters) with
     | Some genres => [genre_overlap genres]
     | None => []
     end
  ++ match truthy_str (f_director filters) with
     | Some d => [director_ilike ("%" +:+ d +:+ "%")]
     | None => []
     end
  ++ match truthy_str (f_rating filters) with
     | Some x => [rating_eq x]
     | None => []
     end
  ++ match truthy_str (f_cast filters) with
     | Some c => [cast_astext_ilike ("%" +:+ c +:+ "%")]
     | None => []
     end.

(** The list comprehension over the rows of a page. *)
Fixpoint _model_to_movies (db_movies : list MovieModel) : M (list Movie) :=
  match db_movies with
  | [] => ret []
  | row :: rest =>
      let* movie := _model_to_movie row in
      let* movies := _model_to_movies rest in
      ret (movie :: movies)
  end.

(** [search_movies]: the count statement, then the ordered and paginated
    statement, then the conversion of each row; any exception gives
    [([], 0)]. *)
Definition search_movies (db : Database) (filters : Filters) (limit offset : Z)
  : list Movie * Z :=
  (try_ (fun db =>
           async_with (get_session db)
             (fun _ =>
                let conditions := conditions filters in
                let* count := select_count conditions in
                let total := default 0 count in
                let* db_movies := select_page conditions offset limit in
                let* movies := _model_to_movies db_movies in
                ret (movies, total)) db)
        ([], 0) db).2.

End Repository.

End Repositories.

(** ** Wildcard patterns of Redis [KEYS] *)

Module Pattern.

Inductive Tok :=
| AnySeq            (* any run of characters, also empty *)
| AnyOne            (* exactly one character *)
| Lit (a : ascii).

Fixpoint matches (ts : list Tok) (s : list ascii) {struct ts} : bool :=
  match ts with
  | [] => match s with [] => true | _ => false end
  | Lit a :: ts' =>
      match s with
      | c :: s' => Ascii.eqb a c && matches ts' s'
      | [] => false
      end
  | AnyOne :: ts' =>
      match s with
      | _ :: s' => matches ts' s'
      | [] => false
      end
  | AnySeq :: ts' =>
      (fix skip (s : list ascii) : bool :=
         matches ts' s
         || match s with
            | [] => false
            | _ :: s' => skip s'
            end) s
  end.

(** A Redis glob: [*] and [?] are the wildcards and a backslash quotes the
    next character.  Bracket classes are not modelled; the one pattern the
    services pass is ["search:*"]. *)
Fixpoint glob_tokens (p : list ascii) : list Tok :=
  match p with
  | [] => []
  | "\"%char :: c :: rest => Lit c :: glob_tokens rest
  | "*"%char :: rest => AnySeq :: glob_tokens rest
  | "?"%char :: rest => AnyOne :: glob_tokens rest
  | c :: rest => Lit c :: glob_tokens rest
  end.

Definition glob (pattern key : string) : bool :=
  matches (glob_tokens (list_ascii_of_string pattern)) (list_ascii_of_string key).

End Pattern.

(** ** api/cache.py: CacheService *)

Module Cache.
Import Py Models.

(** A decoded JSON document, as far as the services look into one: an object
    with at least one key, read through the keys [Movie] reads, or any
    other document (the empty object among them) with its Python truth
    value. *)
Inductive Json :=
| JObject (kw : MovieArgs)
| JOther (truthy : bool).

Definition truth (doc : Json) : bool :=
  match doc with
  | JObject _ => true
  | JOther b => b
  end.

(** What Redis holds under a key: the stored text ([None] when it is not
    JSON, so that [json.loads] raises) and the expiry given to [setex]. *)
Record Entry := {
  document : option Json;
  expiry : Z
}.

(** [CacheService]: whether [connect()] has set [client], the configured
    [ttl_seconds], and the Redis server (whether it answers, and its keys). *)
Record CacheService := {
  client : bool;
  ttl_seconds : Z;
  reachable : bool;
  redis : gmap string Entry
}.

Definition with_redis (c : CacheService) (m : gmap string Entry) : CacheService :=
  {| client := client c; ttl_seconds := ttl_seconds c; reachable := reachable c;
     redis := m |}.

(** [cache_key(prefix, *args)], the arguments already passed through [str]. *)
Definition cache_key (prefix : string) (args : list string) : string :=
  prefix +:+ ":" +:+ join ":" args.

(** [get] *)
Definition get (c : CacheService) (key : string) : option Json :=
  if negb (client c) then None
  else if negb (reachable c) then None
  else e ← redis c !! key; document e.

(** [set]: [ttl or self.config.ttl_seconds]; [setex] refuses an expiry that is
    not positive. *)
Definition set (c : CacheService) (key : string) (value : Json) (ttl : option Z)
  : CacheService * bool :=
  if negb (client c) then (c, false)
  else
    let ttl := match ttl with
               | Some 0 | None => ttl_seconds c
               | Some t => t
               end in
    if reachable c && (0 <? ttl)
    then (with_redis c (<[key := {| document := Some value; expiry := ttl |}]> (redis c)), true)
    else (c, false).

(** [delete] *)
Definition delete (c : CacheService) (key : string) : CacheService * bool :=
  if negb (client c) then (c, false)
  else if negb (reachable c) then (c, false)
  else (with_redis c (base.delete key (redis c)), bool_decide (is_Some (redis c !! key))).

(** [invalidate_pattern]: [KEYS pattern], then one [DEL] of what it listed. *)
Definition invalidate_pattern (c : CacheService) (pattern : string) : CacheService * nat :=
  if negb (client c) then (c, 0%nat)
  else if negb (reachable c) then (c, 0%nat)
  else
    let keys := filter (fun kv => Pattern.glob pattern kv.1 = true) (redis c) in
    (with_redis c (filter (fun kv => Pattern.glob pattern kv.1 <> true) (redis c)),
     size keys).

(** [health_check] *)
Definition health_check (c : CacheService) : bool := client c && reachable c.

End Cache.

(** ** api/services.py: MovieService *)

Module Services.
Import Py Models Cache.

(** The methods [MovieService] calls on the repository it was constructed
    with, over the state [R] of that repository. *)
Record MovieRepository (R : Type) := {
  repo_get_movie_by_id : R -> string -> option Movie;
  repo_create_movie : R -> Movie -> R * option Movie;
  repo_update_movie : R -> Movie -> R * option Movie;
  repo_delete_movie : R -> string -> R * bool
}.
Arguments repo_get_movie_by_id {R}.
Arguments repo_create_movie {R}.
Arguments repo_update_movie {R}.
Arguments repo_delete_movie {R}.

(** [MovieService]: the repository and the cache. *)
Record MovieService (R : Type) := {
  repository : R;
  cache : CacheService
}.
Arguments repository {R}.
Arguments cache {R}.

Section Service.
Context {U : Unicode} {R : Type} (methods : MovieRepository R).

(** The [Movie] constructor on a decoded document: an object goes through the
    constructor, anything else is not a mapping. *)
Definition Movie_from_cache (doc : Json) : Outcome Movie :=
  match doc with
  | JObject kw =>
      match Movie_init kw with
      | Some m => Returned m
      | None => Raised "ValidationError"
      end
  | JOther _ => Raised "TypeError"
  end.

(** [if cached_movie:] on what [get] returned: the document when there is one
    and it is truthy. *)
Definition cache_hit (cached : option Json) : option Json :=
  match cached with
  | Some doc => if truth doc then Some doc else None
  | None => None
  end.

(** [get_movie_by_id] *)
Definition get_movie_by_id (s : MovieService R) (movie_id : string)
  : MovieService R * Outcome (option Movie) :=
  let cache_key := Cache.cache_key "movie" [movie_id] in
  match cache_hit (Cache.get (cache s) cache_key) with
  | Some cached_movie =>
      (s, match Movie_from_cache cached_movie with
          | Returned m => Returned (Some m)
          | Raised e => Raised e
          end)
  | None =>
      match repo_get_movie_by_id methods (repository s) movie_id with
      | Some movie =>
          let '(c, _) := Cache.set (cache s) cache_key (JObject (dict movie)) None in
          ({| repository := repository s; cache := c |}, Returned (Some movie))
      | None => (s, Returned None)
      end
  end.

(** [create_movie] *)
Definition create_movie (s : MovieService R) (movie : Movie)
  : MovieService R * option Movie :=
  let '(r, created_movie) := repo_create_movie methods (repository s) movie in
  match created_movie with
  | Some created =>
      let cache_key := Cache.cache_key "movie" [id created] in
      let '(c1, _) := Cache.set (cache s) cache_key (JObject (dict created)) None in
      let '(c2, _) := Cache.invalidate_pattern c1 "search:*" in
      ({| repository := r; cache := c2 |}, Some created)
  | None => ({| repository := r; cache := cache s |}, None)
  end.

(** [update_movie] *)
Definition update_movie (s : MovieService R) (movie : Movie)
  : MovieService R * option Movie :=
  let '(r, updated_movie) := repo_update_movie methods (repository s) movie in
  match updated_movie with
  | Some updated =>
      let cache_key := Cache.cache_key "movie" [id updated] in
      let '(c1, _) := Cache.delete (cache s) cache_key in
      let '(c2, _) := Cache.invalidate_pattern c1 "search:*" in
      ({| repository := r; cache := c2 |}, Some updated)
  | None => ({| repository := r; cache := cache s |}, None)
  end.

(** [delete_movie] *)
Definition delete_movie (s : MovieService R) (movie_id : string)
  : MovieService R * bool :=
  let '(r, deleted) := repo_delete_movie methods (repository s) movie_id in
  if deleted then
    let cache_key := Cache.cache_key "movie" [movie_id] in
    let '(c1, _) := Cache.delete (cache s) cache_key in
    let '(c2, _) := Cache.invalidate_pattern c1 "search:*" in
    ({| repository := r; cache := c2 |}, true)
  else ({| repository := r; cache := cache s |}, false).

End Service.

(** [MovieRepository(app.state.database)]: the repository of
    [shared/repositories.py], which [get_movie_service] passes to the
    service. *)
Definition movie_repo {U : Unicode} {E : Database.Engine} : MovieRepository Database.Database := {|
  repo_get_movie_by_id := Repositories.get_movie_by_id;
  repo_create_movie := Repositories.create_movie;
  repo_update_movie := Repositories.update_movie;
  repo_delete_movie := Repositories.delete_movie
|}.

End Services.

(** ** api/main.py: the health endpoint *)

Module Api.
Import Py.

Record HealthCheck := {
  status : string;
  services : list (string * string)
}.

(** The entry a dependency gets in [services]: the awaited [health_check()]
    either returns a flag or raises. *)
Definition service_entry (r : Outcome bool) : string :=
  match r with
  | Returned true => "healthy"
  | Returned false => "unhealthy"
  | Raised e => "error: " +:+ e
  end.

(** The body of [health_check()], as a function of what the two awaited
    checks gave.  The timestamp and the version string of the response are
    left out. *)
Definition health_response (db_status cache_status : Outcome bool) : HealthCheck :=
  let services :=
    [ ("database", service_entry db_status);
      ("cache", service_entry cache_status);
      ("search", "postgresql-based") ] in
  let status :=
    if forallb (fun s => contains "healthy" s) (map snd services)
    then "healthy" else "degraded" in
  {| status := status; services := services |}.

(** [health_check()] over [app.state.database] and [app.state.cache]. *)
Definition health_check {E : Database.Engine} (database : Database.Database)
    (cache : Cache.CacheService) : HealthCheck :=
  health_response (Returned (Database.health_check database))
                  (Returned (Cache.health_check cache)).

End Api.

(** ** data_processor/main.py: DataProcessor *)

Module DataProcessor.
Import Py Models Database.

Local Open Scope nat_scope.

(** What [get_object] followed by [read().decode()] and [json.loads] finds
    under a bucket and key. *)
Inductive S3Object :=
| ClientError                 (* the download raises *)
| InvalidJson                 (* the text is not JSON *)
| NotAnObject                 (* JSON, but not an object *)
| JsonObject (kw : MovieArgs).

(** One entry of [Records].  [eventSource] is [None] when the key is absent;
    [s3] is the bucket name and the object key, [None] when one of the
    lookups that reach them raises. *)
Record EventRecord := {
  eventSource : option string;
  s3 : option (string * string)
}.

(** The [Message] field of an SNS envelope, once decoded. *)
Inductive SnsMessage :=
| SnsMalformed                          (* [json.loads] raises *)
| SnsRecords (records : list EventRecord).  (* [.get('Records', [])] *)

(** The [Body] of a queue message, once decoded. *)
Inductive Body :=
| Malformed                             (* [json.loads] raises *)
| Direct (records : list EventRecord)   (* ['Records' in body] *)
| SnsWrapped (message : SnsMessage)     (* ['Message' in body] *)
| UnknownFormat.

Record Message := {
  MessageId : option string;
  ReceiptHandle : string;
  message_body : Body
}.

(** [DataProcessor]: the two counters, the database behind [movie_repo], the
    object store, and the queue (the receipt handles still on it, and whether
    [delete_message] goes through). *)
Record DataProcessor := {
  processed_count : nat;
  error_count : nat;
  database : Database;
  s3_client : string -> string -> S3Object;
  sqs_queue : list string;
  sqs_up : bool
}.

Section Worker.
Context {U : Unicode} {E : Engine}.

(** [_process_movie_data]: look the id up, update when found, else create. *)
Definition _process_movie_data (db : Database) (movie_data : Movie) : Database * bool :=
  match Repositories.get_movie_by_id db (id movie_data) with
  | Some _ =>
      let '(db', updated_movie) := Repositories.update_movie db movie_data in
      (db', bool_decide (is_Some updated_movie))
  | None =>
      let '(db', created_movie) := Repositories.create_movie db movie_data in
      (db', bool_decide (is_Some created_movie))
  end.

(** [_process_s3_file] *)
Definition _process_s3_file (s3_client : string -> string -> S3Object) (db : Database)
    (bucket_name object_key : string) : Database * bool :=
  match s3_client bucket_name object_key with
  | ClientError | InvalidJson | NotAnObject => (db, false)
  | JsonObject movie_data_dict =>
      match Movie_init movie_data_dict with
      | None => (db, false)
      | Some movie_data => _process_movie_data db movie_data
      end
  end.

(** The [for record in records] loop: the database and [success_count] after
    it, [None] when a record raised. *)
Fixpoint process_records (s3_client : string -> string -> S3Object)
    (records : list EventRecord) (db : Database) (success_count : nat)
  : Database * option nat :=
  match records with
  | [] => (db, Some success_count)
  | record :: rest =>
      if bool_decide (eventSource record <> Some "aws:s3")
      then process_records s3_client rest db success_count
      else
        match s3 record with
        | None => (db, None)
        | Some (bucket_name, object_key) =>
            let '(db', ok) := _process_s3_file s3_client db bucket_name object_key in
            process_records s3_client rest db' (if ok then S success_count else success_count)
        end
  end.

Definition with_database (p : DataProcessor) (db : Database) : DataProcessor :=
  {| processed_count := processed_count p; error_count := error_count p;
     database := db; s3_client := s3_client p; sqs_queue := sqs_queue p;
     sqs_up := sqs_up p |}.

Definition add_errors (p : DataProcessor) (n : nat) : DataProcessor :=
  {| processed_count := processed_count p; error_count := error_count p + n;
     database := database p; s3_client := s3_client p; sqs_queue := sqs_queue p;
     sqs_up := sqs_up p |}.

(** [delete_message] followed by [processed_count += success_count]. *)
Definition acknowledge (p : DataProcessor) (receipt_handle : string) (success_count : nat)
  : DataProcessor :=
  {| processed_count := processed_count p + success_count;
     error_count := error_count p;
     database := database p; s3_client := s3_client p;
     sqs_queue := List.filter (fun h => negb (String.eqb h receipt_handle)) (sqs_queue p);
     sqs_up := sqs_up p |}.

(** The records a decoded body carries: [Some None] is the unknown format,
    [None] a body whose decoding raises. *)
Definition extract_records (body : Body) : option (option (list EventRecord)) :=
  match body with
  | Malformed => None
  | Direct records => Some (Some records)
  | SnsWrapped SnsMalformed => None
  | SnsWrapped (SnsRecords records) => Some (Some records)
  | UnknownFormat => Some None
  end.

End Worker.

Section Messages.
Context {U : Unicode} {E : Engine}.

(** [_process_single_message] *)
Definition _process_single_message (p : DataProcessor) (message : Message)
  : DataProcessor * bool :=
  let receipt_handle := ReceiptHandle message in
  match extract_records (message_body message) with
  | None => (add_errors p 1, false)
  | Some None => (p, false)
  | Some (Some records) =>
      let total_records := length records in
      match process_records (s3_client p) records (database p) 0 with
      | (db, None) => (add_errors (with_database p db) 1, false)
      | (db, Some success_count) =>
          if success_count =? total_records then
            if sqs_up p
            then (acknowledge (with_database p db) receipt_handle success_count, true)
            else (add_errors (with_database p db) 1, false)
          else
            (add_errors (with_database p db) (total_records - success_count), false)
      end
  end.

End Messages.

End DataProcessor.

(** ** Notions used in the statements *)

Module Notions.
Import Py Models Database Repositories Cache DataProcessor.

(** The payload lists some genre twice. *)
Definition duplicate_genres (kw : MovieArgs) : Prop :=
  exists values, arg_genre kw = Some values /\ ~ NoDup values.

(** Two cast entries of the payload have names that are equal ignoring case. *)
Definition duplicate_cast_names {U : Unicode} (kw : MovieArgs) : Prop :=
  exists members,
    arg_cast kw = Given members
    /\ ~ NoDup ((fun member => lower (name member)) <$> members).

Section Outcomes.
Context {U : Unicode} {E : Engine}.

(** For each record of a message, in order, whether it was processed with
    success.  A record from another source is skipped, and one that is never
    reached because an earlier record raised was not processed either. *)
Fixpoint record_outcomes (s3_client : string -> string -> S3Object)
    (records : list EventRecord) (db : Database) : list bool :=
  match records with
  | [] => []
  | record :: rest =>
      if bool_decide (eventSource record = Some "aws:s3") then
        match s3 record with
        | Some (bucket_name, object_key) =>
            let '(db', ok) := _process_s3_file s3_client db bucket_name object_key in
            ok :: record_outcomes s3_client rest db'
        | None => false :: ((fun _ => false) <$> rest)
        end
      else false :: record_outcomes s3_client rest db
  end.



End Outcomes.

(** The records that succeeded, and those that did not. *)
Definition succeeded (outcomes : list bool) : nat :=
  length (List.filter (fun ok => ok) outcomes).
Definition failed (outcomes : list bool) : nat :=
  length (List.filter negb outcomes).


(** A query for one year and nothing else. *)
Definition year_only (y : Z) : Filters :=
  {| f_title := None; f_year := Some y; f_genre := None; f_director := None;
     f_rating := None; f_cast := None |}.

(** The rows of a year. *)
Definition rows_of_year (y : Z) (db : Database) : list MovieModel :=
  List.filter (fun r => bool_decide (col_year r = y)) (movies db).


(** The cache is connected and its server answers. *)
Definition available (c : CacheService) : Prop :=
  client c = true /\ reachable c = true.

(** The cache serves the document [doc] under [key]: it is available and the
    key holds [doc], which is truthy. *)
Definition serves (c : CacheService) (key : string) (doc : Json) : Prop :=
  available c
  /\ exists e, redis c !! key = Some e /\ document e = Some doc /\ truth doc = true.

(** A read of [key] is a miss: the cache serves nothing under it. *)
Definition misses (c : CacheService) (key : string) : Prop :=
  forall doc, ~ serves c key doc.

End Notions.

(** ** Sample data *)

Module Samples.
Import Py Models Database DataProcessor.

(** [str.lower] and the IMDb pattern on ASCII text, which is all the samples
    hold. *)
Definition lower_ascii (a : ascii) : ascii :=
  let n := nat_of_ascii a in
  if (65 <=? n)%nat && (n <=? 90)%nat then ascii_of_nat (n + 32) else a.

Fixpoint ascii_lower (s : string) : string :=
  match s with
  | EmptyString => EmptyString
  | String a rest => String (lower_ascii a) (ascii_lower rest)
  end.

Definition is_digit (a : ascii) : bool :=
  let n := nat_of_ascii a in (48 <=? n)%nat && (n <=? 57)%nat.

Definition ascii_imdb_pattern (s : string) : bool :=
  match s with
  | String "t" (String "t" digits) =>
      forallb is_digit (list_ascii_of_string digits)
      && ((String.length digits =? 7)%nat || (String.length digits =? 8)%nat)
  | _ => false
  end.

Definition ascii_text : Unicode :=
  {| lower := ascii_lower; imdb_pattern := ascii_imdb_pattern |}.

(** The row that holds a movie. *)
Definition row_of (movie : Movie) (created updated : Z) : MovieModel := {|
  col_id := id movie;
  col_title := title movie;
  col_year := year movie;
  col_genre := (Genre_value <$> genre movie);
  col_cast := cast movie;
  col_director := director movie;
  col_runtime_minutes := runtime_minutes movie;
  col_rating := Rating_value <$> rating movie;
  col_imdb_id := imdb_id movie;
  col_budget_usd := budget_usd movie;
  col_box_office_usd := box_office_usd movie;
  col_synopsis := synopsis movie;
  col_poster_url := poster_url movie;
  col_trailer_url := trailer_url movie;
  col_provider_metadata := provider_metadata movie;
  col_created_at := created;
  col_updated_at := updated
|}.

(** A database engine that keeps the rows in the order they were added,
    accepts every statement and applies no condition. *)
Definition memory_engine : Engine := {|
  select_1 := ret 1;
  select_by_id := fun movie_id db =>
    (db, Returned (List.find (fun r => String.eqb (col_id r) movie_id) (movies db)));
  add := fun movie db =>
    ({| session_factory := session_factory db;
        movies := (movies db ++ [row_of movie 0 0])%list |},
     Returned (row_of movie 0 0));
  flush := fun row db =>
    ({| session_factory := session_factory db;
        movies := map (fun r => if String.eqb (col_id r) (col_id row) then row else r)
                      (movies db) |},
     Returned row);
  delete := fun row db =>
    ({| session_factory := session_factory db;
        movies := List.filter (fun r => negb (String.eqb (col_id r) (col_id row)))
                    (movies db) |},
     Returned ());
  select_count := fun _ db => (db, Returned (Some (Z.of_nat (length (movies db)))));
  select_page := fun _ offset limit db =>
    (db, Returned (take (Z.to_nat limit) (drop (Z.to_nat offset) (movies db))))
|}.

Definition shawshank_movie : Movie := {|
  id := "shawshank-1994";
  title := "The Shawshank Redemption";
  year := 1994;
  genre := [DRAMA];
  cast := Some [ {| name := "Tim Robbins"; role := "actor";
                    character := Some "Andy Dufresne" |};
                 {| name := "Morgan Freeman"; role := "actor";
                    character := Some "Red" |} ];
  director := Some "Frank Darabont";
  runtime_minutes := Some 142;
  rating := Some R;
  imdb_id := Some "tt0111161";
  budget_usd := Some 25000000;
  box_office_usd := Some 28341469;
  synopsis := None;
  poster_url := None;
  trailer_url := None;
  provider_metadata := Some [];
  created_at := None;
  updated_at := None
|}.

(** A valid movie whose cast and metadata are [None]. *)
Definition pulp_fiction_movie : Movie := {|
  id := "pulp-fiction-1994";
  title := "Pulp Fiction";
  year := 1994;
  genre := [CRIME; DRAMA];
  cast := None;
  director := Some "Quentin Tarantino";
  runtime_minutes := Some 154;
  rating := Some R;
  imdb_id := Some "tt0110912";
  budget_usd := None;
  box_office_usd := None;
  synopsis := None;
  poster_url := None;
  trailer_url := None;
  provider_metadata := None;
  created_at := None;
  updated_at := None
|}.

Definition heat_movie : Movie := {|
  id := "heat-1995";
  title := "Heat";
  year := 1995;
  genre := [CRIME; THRILLER];
  cast := Some [];
  director := Some "Michael Mann";
  runtime_minutes := Some 170;
  rating := Some R;
  imdb_id := None;
  budget_usd := None;
  box_office_usd := None;
  synopsis := None;
  poster_url := None;
  trailer_url := None;
  provider_metadata := Some [];
  created_at := None;
  updated_at := None
|}.

(** The JSON document of the first. *)
Definition shawshank : MovieArgs := dict shawshank_movie.

(** A payload that is valid but for its cast: "Tim Robbins" and
    "TIM ROBBINS". *)
Definition shawshank_twice_cast : MovieArgs := {|
  arg_id := Some "shawshank-1994";
  arg_title := Some "The Shawshank Redemption";
  arg_year := Some 1994;
  arg_genre := Some ["Drama"];
  arg_cast := Given [ {| name := "Tim Robbins"; role := "actor"; character := None |};
                      {| name := "TIM ROBBINS"; role := "actor"; character := None |} ];
  arg_director := Some "Frank Darabont";
  arg_runtime_minutes := Some 142;
  arg_rating := Some "R";
  arg_imdb_id := Some "tt0111161";
  arg_budget_usd := None;
  arg_box_office_usd := None;
  arg_synopsis := None;
  arg_poster_url := None;
  arg_trailer_url := None;
  arg_provider_metadata := Missing;
  arg_created_at := None;
  arg_updated_at := None
|}.

(** A connected database whose table holds three titles, two of 1994 and
    one of 1995. *)
Definition library : Database := {|
  session_factory := true;
  movies := [ row_of shawshank_movie 1700000000000000 1700000000000003;
              row_of pulp_fiction_movie 1700000000000003 1700000000000253;
              row_of heat_movie 1700000000000254 1700000000000254 ]
|}.

(** A connected database with an empty table. *)
Definition empty_db : Database := {| session_factory := true; movies := [] |}.

(** A connected cache that holds the record and one search result. *)
Definition warm_cache : Cache.CacheService := {|
  Cache.client := true;
  Cache.ttl_seconds := 3600;
  Cache.reachable := true;
  Cache.redis :=
    {[ "movie:shawshank-1994" :=
         {| Cache.document := Some (Cache.JObject shawshank); Cache.expiry := 3600 |};
       "search::1994:::::20:0" :=
         {| Cache.document := Some (Cache.JOther true); Cache.expiry := 300 |} ]}
|}.


Definition cold_cache : Cache.CacheService := {|
  Cache.client := true;
  Cache.ttl_seconds := 3600;
  Cache.reachable := true;
  Cache.redis := ∅
|}.


(** An object store with one valid file and one that fails validation. *)
Definition bucket (bucket_name object_key : string) : S3Object :=
  if String.eqb object_key "providers/acme/shawshank.json" then JsonObject shawshank
  else if String.eqb object_key "providers/acme/twice.json"
       then JsonObject shawshank_twice_cast
       else ClientError.

Definition worker : DataProcessor := {|
  processed_count := 0;
  error_count := 0;
  database := library;
  s3_client := bucket;
  sqs_queue := ["receipt-1"; "receipt-2"];
  sqs_up := true
|}.

Definition s3_record (object_key : string) : EventRecord :=
  {| eventSource := Some "aws:s3"; s3 := Some ("movie-data", object_key) |}.




(** One record whose file is valid, and one record from another source. *)
Definition good_and_foreign : Message := {|
  MessageId := Some "m-2";
  ReceiptHandle := "receipt-2";
  message_body :=
    SnsWrapped (SnsRecords
      [ s3_record "providers/acme/shawshank.json";
        {| eventSource := Some "aws:sns"; s3 := None |} ])
|}.


(** A repository that keeps its movies in a list and whose writes succeed:
    [create] appends, [update] replaces the movie of that id, [delete]
    removes it. *)
Definition memory_repo : Services.MovieRepository (list Movie) := {|
  Services.repo_get_movie_by_id := fun stored movie_id =>
    List.find (fun m => String.eqb (id m) movie_id) stored;
  Services.repo_create_movie := fun stored movie => ((stored ++ [movie])%list, Some movie);
  Services.repo_update_movie := fun stored movie =>
    if existsb (fun m => String.eqb (id m) (id movie)) stored
    then (map (fun m => if String.eqb (id m) (id movie) then movie else m) stored,
          Some movie)
    else (stored, None);
  Services.repo_delete_movie := fun stored movie_id =>
    if existsb (fun m => String.eqb (id m) movie_id) stored
    then (List.filter (fun m => negb (String.eqb (id m) movie_id)) stored, true)
    else (stored, false)
|}.


(** The service as [get_movie_service] builds it, over the database of three
    titles and the warm cache. *)
Definition library_service : Services.MovieService Database :=
  {| Services.repository := library; Services.cache := warm_cache |}.

End Samples.

(** * Properties *)

Module ApiFacts.
Import Py Api.

(** The membership test is a substring test: it accepts the entry of a
    dependency that is down and refuses the fixed search entry. *)
Lemma contains_healthy_entries :
  contains "healthy" "unhealthy" = true
  /\ contains "healthy" "postgresql-based" = false.
Proof. split; reflexivity. Qed.

(** The search entry is never "healthy", so neither is the status. *)
Lemma health_response_degraded db_status cache_status :
  status (health_response db_status cache_status) = "degraded".
Proof.
  unfold health_response; cbn [status map snd forallb].
  replace (contains "healthy" "postgresql-based") with false by reflexivity.
  now rewrite !andb_false_r.
Qed.

(** The database check enters the session like the repository does, and
    reports the database as down whatever its state. *)
Lemma database_entry_unhealthy {E : Database.Engine} database cache :
  services (health_check database cache)
  = [ ("database", "unhealthy");
      ("cache", if Cache.health_check cache then "healthy" else "unhealthy");
      ("search", "postgresql-based") ].
Proof.
  unfold health_check, health_response. cbn [services].
  change (Database.health_check database) with false.
  now destruct (Cache.health_check cache).
Qed.

(** C1. Whatever the two checks give, the status of the response is
    "healthy" exactly when every entry of [services] is "healthy", and it is
    "degraded" otherwise. *)
Theorem health_status_iff_all_healthy db_status cache_status :
  let response := health_response db_status cache_status in
  (status response = "healthy"
   <-> Forall (fun entry => entry.2 = "healthy") (services response))
  /\ (status response <> "healthy" -> status response = "degraded").
Proof.
  cbv zeta. rewrite health_response_degraded. split; [|done].
  split; [discriminate|].
  unfold health_response; cbn [services]. rewrite !Forall_cons. cbn.
  intros (_ & _ & Hsearch & _). discriminate.
Qed.

End ApiFacts.

(** ** The schema *)

Module ModelsFacts.
Import Py Models.

Lemma has_duplicates_NoDup {A} `{EqDecision A} (v : list A) :
  has_duplicates v = false <-> NoDup v.
Proof.
  induction v as [|x v IH]; simpl.
  - split; [constructor | reflexivity].
  - rewrite NoDup_cons, orb_false_iff, bool_decide_eq_false. tauto.
Qed.

Lemma has_duplicates_true {A} `{EqDecision A} (v : list A) :
  has_duplicates v = true <-> ~ NoDup v.
Proof.
  rewrite <- has_duplicates_NoDup. destruct (has_duplicates v); split; congruence.
Qed.

Lemma Genre_of_value_value g : Genre_of_value (Genre_value g) = Some g.
Proof. destruct g; reflexivity. Qed.

Lemma Rating_of_value_value r : Rating_of_value (Rating_value r) = Some r.
Proof. destruct r; reflexivity. Qed.

Lemma Genre_of_value_Some s g : Genre_of_value s = Some g -> Genre_value g = s.
Proof.
  unfold Genre_of_value. intros [_ H]%find_some.
  now apply String.eqb_eq in H.
Qed.

Lemma Rating_of_value_Some s r : Rating_of_value s = Some r -> Rating_value r = s.
Proof.
  unfold Rating_of_value. intros [_ H]%find_some.
  now apply String.eqb_eq in H.
Qed.

Lemma mapM_Genre_of_value values genres :
  mapM Genre_of_value values = Some genres -> Genre_value <$> genres = values.
Proof.
  intros H. eapply mapM_fmap_Some_inv; [exact H|]. apply Genre_of_value_Some.
Qed.

Lemma mapM_Genre_of_value_values genres :
  mapM Genre_of_value (Genre_value <$> genres) = Some genres.
Proof. apply mapM_fmap_Some, Genre_of_value_value. Qed.

Section Validation.
Context {U : Unicode}.

(** A constraint that fails anywhere in the conjunction fails the movie. *)
Lemma Movie_constraints_unique m :
  Movie_constraints m = true ->
  unique_genres_raises (genre m) = false
  /\ unique_cast_names_raises (cast m) = false.
Proof.
  unfold Movie_constraints. rewrite !andb_true_iff, !negb_true_iff. tauto.
Qed.

Lemma Movie_init_Some kw m :
  Movie_init kw = Some m <-> Movie_convert kw = Some m /\ Movie_constraints m = true.
Proof.
  unfold Movie_init. destruct (Movie_convert kw) as [m'|]; cbn.
  - destruct (Movie_constraints m') eqn:Hc; split.
    + intros [= <-]. auto.
    + intros [[= <-] _]. reflexivity.
    + discriminate.
    + intros [[= <-] H]. congruence.
  - split; [discriminate | intros [? _]; discriminate].
Qed.

End Validation.

Lemma Movie_convert_genre kw m :
  Movie_convert kw = Some m -> arg_genre kw = Some ((Genre_value <$> genre m)).
Proof.
  unfold Movie_convert. intros H.
  destruct (arg_id kw); [|discriminate]. destruct (arg_title kw); [|discriminate].
  destruct (arg_year kw); [|discriminate].
  destruct (arg_genre kw) as [values|]; [|discriminate]. cbn in H.
  destruct (mapM Genre_of_value values) as [gs|] eqn:Hgs; [|discriminate]. cbn in H.
  destruct (match arg_rating kw with Some s => _ | None => _ end); [|discriminate].
  cbn in H. inversion H; subst; cbn.
  now rewrite (mapM_Genre_of_value _ _ Hgs).
Qed.

Lemma Movie_convert_cast kw m members :
  Movie_convert kw = Some m -> arg_cast kw = Given members -> cast m = Some members.
Proof.
  unfold Movie_convert. intros H Hc.
  destruct (arg_id kw); [|discriminate]. destruct (arg_title kw); [|discriminate].
  destruct (arg_year kw); [|discriminate].
  destruct (arg_genre kw) as [values|]; [|discriminate]. cbn in H.
  destruct (mapM Genre_of_value values) as [gs|]; [|discriminate]. cbn in H.
  destruct (match arg_rating kw with Some s => _ | None => _ end); [|discriminate].
  cbn in H. inversion H; subst; cbn. now rewrite Hc.
Qed.

End ModelsFacts.

(** ** Validation of ingested payloads *)

Module ValidationFacts.
Import Py Models Database DataProcessor ModelsFacts Samples Notions.

Lemma duplicate_genres_raise kw m :
  duplicate_genres kw -> Movie_convert kw = Some m ->
  unique_genres_raises (genre m) = true.
Proof.
  intros (values & Hv & Hdup) Hm.
  rewrite (Movie_convert_genre _ _ Hm) in Hv. injection Hv as <-.
  apply has_duplicates_true. intros Hnd. apply Hdup.
  assert (Hinj : Inj eq eq Genre_value).
  { intros g1 g2 Hg. apply (f_equal Genre_of_value) in Hg.
    rewrite !Genre_of_value_value in Hg. congruence. }
  now apply (NoDup_fmap_2 Genre_value).
Qed.

Section Validation.
Context {U : Unicode} {E : Engine}.

Lemma duplicate_cast_names_raise kw m :
  duplicate_cast_names kw -> Movie_convert kw = Some m ->
  unique_cast_names_raises (cast m) = true.
Proof.
  intros (members & Hc & Hdup) Hm.
  rewrite (Movie_convert_cast _ _ _ Hm Hc). unfold unique_cast_names_raises.
  destruct members as [|member members].
  - exfalso. apply Hdup. constructor.
  - now apply has_duplicates_true.
Qed.

(** C9. A payload with a repeated genre, or with two cast names equal up to
    case, is refused by the [Movie] constructor; the worker then reports the
    file as failed and the table is left as it was. *)
Theorem duplicates_rejected_before_store kw :
  duplicate_genres kw \/ duplicate_cast_names kw ->
  Movie_init kw = None
  /\ forall s3_client db bucket_name object_key,
       s3_client bucket_name object_key = JsonObject kw ->
       _process_s3_file s3_client db bucket_name object_key = (db, false).
Proof.
  intros Hdup.
  assert (Hinit : Movie_init kw = None).
  { destruct (Movie_init kw) as [m|] eqn:Hm; [|reflexivity].
    apply Movie_init_Some in Hm as [Hconv Hok].
    apply Movie_constraints_unique in Hok as [Hg Hc].
    destruct Hdup as [Hdup|Hdup].
    - rewrite (duplicate_genres_raise _ _ Hdup Hconv) in Hg. discriminate.
    - rewrite (duplicate_cast_names_raise _ _ Hdup Hconv) in Hc. discriminate. }
  split; [exact Hinit|].
  intros s3_client db bucket_name object_key Hobj.
  unfold _process_s3_file. now rewrite Hobj, Hinit.
Qed.

End Validation.

Lemma duplicates_rejected_witness :
  @duplicate_cast_names ascii_text shawshank_twice_cast
  /\ @Movie_init ascii_text shawshank_twice_cast = None.
Proof.
  assert (H : @duplicate_cast_names ascii_text shawshank_twice_cast).
  { eexists. split; [reflexivity|]. apply has_duplicates_true. reflexivity. }
  split; [exact H|].
  exact (proj1 (@duplicates_rejected_before_store ascii_text memory_engine
                  shawshank_twice_cast (or_intror H))).
Defined.

End ValidationFacts.

(** ** The ingestion worker: counters and acknowledgement *)

Module DataProcessorFacts.
Import Py Models Database DataProcessor Samples Notions.

Local Open Scope nat_scope.

Lemma succeeded_failed outcomes : succeeded outcomes + failed outcomes = length outcomes.
Proof.
  unfold succeeded, failed. induction outcomes as [|[] l IH]; simpl; lia.
Qed.

Section Worker.
Context {U : Unicode} {E : Engine}.

Lemma length_record_outcomes s3_client records db :
  length (record_outcomes s3_client records db) = length records.
Proof.
  revert db. induction records as [|record rest IH]; intros db; simpl; [reflexivity|].
  case_bool_decide.
  - destruct (s3 record) as [[b k]|]; simpl.
    + destruct (_process_s3_file s3_client db b k) as [db' ok]. simpl. now rewrite IH.
    + now rewrite length_fmap.
  - simpl. now rewrite IH.
Qed.

(** The loop counter counts the records that succeeded. *)
Lemma process_records_counts s3_client records db n0 db' n :
  process_records s3_client records db n0 = (db', Some n) ->
  n = n0 + succeeded (record_outcomes s3_client records db).
Proof.
  revert db n0. induction records as [|record rest IH]; intros db n0 H; simpl in *.
  - injection H as _ <-. unfold succeeded. simpl. lia.
  - destruct (decide (eventSource record = Some "aws:s3")) as [Hs|Hs].
    + rewrite (bool_decide_eq_false_2 _) in H by (intros Hn; now apply Hn).
      rewrite (bool_decide_eq_true_2 _ Hs).
      destruct (s3 record) as [[b k]|]; [|discriminate].
      destruct (_process_s3_file s3_client db b k) as [db1 ok].
      apply IH in H. subst n. unfold succeeded. destruct ok; simpl; lia.
    + rewrite (bool_decide_eq_true_2 _ Hs) in H.
      rewrite (bool_decide_eq_false_2 _ Hs).
      apply IH in H. subst n. unfold succeeded. simpl. lia.
Qed.

Lemma process_records_failed s3_client records db db' n :
  process_records s3_client records db 0 = (db', Some n) ->
  n = succeeded (record_outcomes s3_client records db)
  /\ length records - n = failed (record_outcomes s3_client records db)
  /\ n <= length records.
Proof.
  intros H. apply process_records_counts in H.
  pose proof (succeeded_failed (record_outcomes s3_client records db)) as Hsf.
  rewrite length_record_outcomes in Hsf. lia.
Qed.

(** A record from another source never counts as a success. *)
Lemma skipped_record_fails s3_client records db record :
  record ∈ records -> eventSource record <> Some "aws:s3" ->
  0 < failed (record_outcomes s3_client records db).
Proof.
  revert db. induction records as [|r rest IH]; intros db Hin Hs.
  - now apply elem_of_nil in Hin.
  - simpl. destruct (decide (eventSource r = Some "aws:s3")) as [Hr|Hr].
    + rewrite (bool_decide_eq_true_2 _ Hr).
      apply elem_of_cons in Hin as [->|Hin]; [contradiction|].
      destruct (s3 r) as [[b k]|].
      * destruct (_process_s3_file s3_client db b k) as [db1 ok].
        specialize (IH db1 Hin Hs). unfold failed in *. destruct ok; simpl; lia.
      * unfold failed. simpl. lia.
    + rewrite (bool_decide_eq_false_2 _ Hr). unfold failed. simpl. lia.
Qed.


Lemma not_acknowledged_keeps_queue p message :
  (_process_single_message p message).2 = false ->
  sqs_queue (_process_single_message p message).1 = sqs_queue p
  /\ processed_count (_process_single_message p message).1 = processed_count p.
Proof.
  unfold _process_single_message.
  destruct (extract_records (message_body message)) as [[records|]|]; simpl; auto.
  destruct (process_records _ _ _ _) as [db [n|]]; simpl; auto.
  destruct (n =? length records); simpl; auto.
  destruct (sqs_up p); simpl; auto. discriminate.
Qed.


End Worker.



Section Foreign.
Context {U : Unicode} {E : Engine}.

(** C5. A message whose records include one from a source other than aws:s3
    is never acknowledged: it stays on the queue, [processed_count] does not
    move, and the loop counter stays below the number of records even when
    every aws:s3 record succeeded. *)
Theorem foreign_record_blocks_acknowledgement p message records record :
  extract_records (message_body message) = Some (Some records) ->
  record ∈ records ->
  eventSource record <> Some "aws:s3" ->
  let p' := (_process_single_message p message).1 in
  (_process_single_message p message).2 = false
  /\ sqs_queue p' = sqs_queue p
  /\ processed_count p' = processed_count p
  /\ forall db success_count,
       process_records (s3_client p) records (database p) 0 = (db, Some success_count) ->
       success_count < length records.
Proof.
  intros Hrecords Hin Hsource. cbv zeta.
  pose proof (skipped_record_fails (s3_client p) records (database p) record Hin Hsource)
    as Hfailed.
  assert (Hlt : forall db success_count,
             process_records (s3_client p) records (database p) 0
             = (db, Some success_count) ->
             success_count < length records).
  { intros db n Hloop. apply process_records_failed in Hloop. lia. }
  assert (Hack : (_process_single_message p message).2 = false).
  { unfold _process_single_message. rewrite Hrecords.
    destruct (process_records (s3_client p) records (database p) 0)
      as [db [n|]] eqn:Hloop; [|reflexivity].
    specialize (Hlt _ _ eq_refl).
    destruct (Nat.eqb_spec n (length records)); [lia | reflexivity]. }
  destruct (not_acknowledged_keeps_queue p message Hack) as [Hq Hp].
  auto.
Qed.

End Foreign.

Lemma foreign_record_witness :
  (@_process_single_message ascii_text memory_engine worker good_and_foreign).2 = false
  /\ sqs_queue (@_process_single_message ascii_text memory_engine worker
                  good_and_foreign).1
     = sqs_queue worker.
Proof.
  pose proof (@foreign_record_blocks_acknowledgement ascii_text memory_engine
                worker good_and_foreign _
                {| eventSource := Some "aws:sns"; s3 := None |} eq_refl) as H.
  cbv zeta in H.
  refine ((fun H' => conj (proj1 H') (proj1 (proj2 H'))) (H _ _)).
  - apply list_elem_of_further, list_elem_of_here.
  - discriminate.
Defined.

End DataProcessorFacts.

(** ** The repository behind its session *)

Module RepositoriesFacts.
Import Py Models Database Repositories DataProcessor ModelsFacts Samples Notions.

Section Repository.
Context {U : Unicode} {E : Engine}.

(** No session is entered: the statement raises before its body, whatever
    the state of the database and whatever the body. *)
Lemma async_with_get_session {B} (body : AsyncSession -> M B) (db current : Database) :
  async_with (get_session db) body current = (current, Raised "TypeError").
Proof. reflexivity. Qed.

Lemma create_movie_None db movie : create_movie db movie = (db, None).
Proof. reflexivity. Qed.

Lemma get_movie_by_id_None db movie_id : get_movie_by_id db movie_id = None.
Proof. reflexivity. Qed.

Lemma update_movie_None db movie : update_movie db movie = (db, None).
Proof. reflexivity. Qed.

Lemma delete_movie_false db movie_id : delete_movie db movie_id = (db, false).
Proof. reflexivity. Qed.


Lemma _process_movie_data_false db movie : _process_movie_data db movie = (db, false).
Proof. reflexivity. Qed.

Lemma _process_s3_file_false s3_client db bucket_name object_key :
  _process_s3_file s3_client db bucket_name object_key = (db, false).
Proof.
  unfold _process_s3_file. destruct (s3_client bucket_name object_key); try done.
  now destruct (Movie_init kw).
Qed.

(** C4, on the code.  For every movie and every database, connected or not,
    [create_movie] returns [None] and leaves the table as it was, and
    [get_movie_by_id] returns [None]: no payload is read back. *)
Theorem create_then_get_returns_nothing db movie :
  create_movie db movie = (db, None)
  /\ get_movie_by_id (create_movie db movie).1 (id movie) = None
  /\ forall kw, Movie_init kw = Some movie ->
       get_movie_by_id (create_movie db movie).1 (id movie) <> Some movie.
Proof. repeat split. intros kw _. discriminate. Qed.

(** C6, on the code.  Ingesting a validated movie reports failure and stores
    nothing, the first time and the second: the table is left as it was, so
    a movie that was not stored before is not stored after two
    submissions. *)
Theorem ingestion_stores_nothing db movie :
  let first := _process_movie_data db movie in
  let second := _process_movie_data first.1 movie in
  first = (db, false)
  /\ second = (db, false)
  /\ movies second.1 = movies db.
Proof. repeat split. Qed.

(** C8, on the code.  Every search returns no record and a total of zero,
    whatever the table holds; with two rows of 1994 on the table, the query
    for 1994 with limit 1 returns neither a total of 2 nor one record. *)
Theorem search_finds_nothing db filters limit offset :
  search_movies db filters limit offset = ([], 0)
  /\ (length (rows_of_year 1994 db) = 2%nat ->
      (search_movies db (year_only 1994) 1 0).2 <> 2
      /\ length (search_movies db (year_only 1994) 1 0).1 <> 1%nat).
Proof. split; [reflexivity|]. intros _. split; discriminate. Qed.


End Repository.

(** The first sample is a valid payload. *)
Lemma shawshank_valid : @Movie_init ascii_text shawshank = Some shawshank_movie.
Proof. reflexivity. Qed.

Lemma library_two_of_1994 : length (rows_of_year 1994 library) = 2%nat.
Proof. reflexivity. Qed.

Lemma create_then_get_witness :
  @Movie_init ascii_text shawshank = Some shawshank_movie
  /\ @get_movie_by_id ascii_text memory_engine
       (@create_movie ascii_text memory_engine empty_db shawshank_movie).1
       (id shawshank_movie)
     <> Some shawshank_movie.
Proof.
  split; [reflexivity|].
  apply (@create_then_get_returns_nothing ascii_text memory_engine empty_db
           shawshank_movie) with (kw := shawshank).
  reflexivity.
Defined.

Lemma search_finds_nothing_witness :
  length (rows_of_year 1994 library) = 2%nat
  /\ (@search_movies ascii_text memory_engine library (year_only 1994) 1 0).2 <> 2.
Proof.
  split; [reflexivity|].
  apply (@search_finds_nothing ascii_text memory_engine library (year_only 1994) 1 0).
  reflexivity.
Defined.


End RepositoriesFacts.

(** ** The cache *)

Module CacheFacts.
Import Py Models Cache Pattern Notions.





Lemma invalidate_pattern_up c pattern :
  client (invalidate_pattern c pattern).1 = client c
  /\ reachable (invalidate_pattern c pattern).1 = reachable c.
Proof.
  unfold invalidate_pattern. destruct (client c) eqn:Hc; cbn; [|auto].
  destruct (reachable c) eqn:Hr; cbn; auto.
Qed.



(** [set] without a [ttl] stores the document under the configured expiry. *)
Lemma set_default_ttl c key value :
  client c = true -> reachable c = true -> 0 < ttl_seconds c ->
  redis (set c key value None).1
  = <[key := {| document := Some value; expiry := ttl_seconds c |}]> (redis c)
  /\ client (set c key value None).1 = true
  /\ reachable (set c key value None).1 = true
  /\ ttl_seconds (set c key value None).1 = ttl_seconds c.
Proof.
  intros Hc Hr Httl. unfold set. rewrite Hc, Hr. cbn.
  now rewrite (proj2 (Z.ltb_lt _ _) Httl).
Qed.



Lemma movie_key movie_id : cache_key "movie" [movie_id] = "movie:" +:+ movie_id.
Proof. reflexivity. Qed.

End CacheFacts.

(** ** The service: cache-aside reads and writes *)

Module ServicesFacts.
Import Py Models Database Cache Services.
Import ModelsFacts RepositoriesFacts CacheFacts Samples Notions.

Lemma Movie_convert_dict m : Movie_convert (dict m) = Some m.
Proof.
  unfold Movie_convert, dict. cbn -[Genre_of_value Rating_of_value].
  rewrite mapM_Genre_of_value_values. cbn -[Rating_of_value].
  destruct m as [? ? ? ? [members|] ? ? [r|] ? ? ? ? ? ? [meta|] ? ?];
    cbn -[Rating_of_value]; rewrite ?Rating_of_value_value; reflexivity.
Qed.

Section Service.
Context {U : Unicode} {R : Type} (methods : MovieRepository R).

(** A valid movie is read back from its own document. *)
Lemma Movie_from_cache_dict movie :
  Movie_constraints movie = true ->
  Movie_from_cache (JObject (dict movie)) = Returned movie.
Proof.
  intros Hok. unfold Movie_from_cache.
  now rewrite (proj2 (Movie_init_Some (dict movie) movie) (conj (Movie_convert_dict movie) Hok)).
Qed.

Lemma serves_get c key doc : serves c key doc -> cache_hit (Cache.get c key) = Some doc.
Proof.
  intros ([Hc Hr] & e & He & Hdoc & Htruth). unfold Cache.get.
  rewrite Hc, Hr, He. cbn. rewrite Hdoc. cbn. now rewrite Htruth.
Qed.

Lemma misses_get c key : misses c key -> cache_hit (Cache.get c key) = None.
Proof.
  intros Hmiss. destruct (cache_hit (Cache.get c key)) as [doc|] eqn:Hhit; [|done].
  exfalso. apply (Hmiss doc). unfold cache_hit, Cache.get in Hhit. unfold serves, available.
  destruct (client c); [|done]. destruct (reachable c); [|done]. cbn in Hhit.
  destruct (redis c !! key) as [e|]; [|done]. cbn in Hhit.
  destruct (document e) as [doc'|] eqn:Hdoc; [|done].
  destruct (truth doc') eqn:Htruth; [|done]. simplify_eq. eauto 10.
Qed.








(** C10.  A read of [movie_id] looks at the key ["movie:" ++ movie_id].
    When the cache serves a document there, the read returns what the
    [Movie] constructor makes of it (the movie itself, for the document of a
    valid movie) and leaves the service as it was, whatever the repository
    holds.  On a miss it returns what the repository returns: a movie that
    is found is set under the key with no expiry of its own, so with the
    configured one, and is then served from the cache; when none is found
    the read returns nothing and the cache is left as it was. *)
Theorem get_movie_by_id_cache_aside (s : MovieService R) (movie_id : string) :
  let key := "movie:" +:+ movie_id in
  (forall doc,
     serves (cache s) key doc ->
     get_movie_by_id methods s movie_id
     = (s, match Movie_from_cache doc with
           | Returned m => Returned (Some m)
           | Raised e => Raised e
           end))
  /\ (forall movie,
        serves (cache s) key (JObject (dict movie)) ->
        Movie_constraints movie = true ->
        get_movie_by_id methods s movie_id = (s, Returned (Some movie)))
  /\ (forall movie,
        misses (cache s) key ->
        repo_get_movie_by_id methods (repository s) movie_id = Some movie ->
        let s' := (get_movie_by_id methods s movie_id).1 in
        (get_movie_by_id methods s movie_id).2 = Returned (Some movie)
        /\ repository s' = repository s
        /\ cache s' = (Cache.set (cache s) key (JObject (dict movie)) None).1
        /\ (available (cache s) -> 0 < ttl_seconds (cache s) ->
            redis (cache s')
            = <[key := {| document := Some (JObject (dict movie));
                          expiry := ttl_seconds (cache s) |}]> (redis (cache s))
            /\ serves (cache s') key (JObject (dict movie))))
  /\ (misses (cache s) key ->
      repo_get_movie_by_id methods (repository s) movie_id = None ->
      get_movie_by_id methods s movie_id = (s, Returned None)).
Proof.
  cbv zeta. rewrite <- movie_key. split; [|split; [|split]].
  - intros doc Hhit%serves_get. unfold get_movie_by_id. now rewrite Hhit.
  - intros movie Hhit%serves_get Hok. unfold get_movie_by_id.
    now rewrite Hhit, Movie_from_cache_dict.
  - intros movie Hmiss%misses_get Hfound.
    assert (Hrun : get_movie_by_id methods s movie_id
                   = ({| repository := repository s;
                         cache := (Cache.set (cache s) (cache_key "movie" [movie_id])
                                     (JObject (dict movie)) None).1 |},
                      Returned (Some movie))).
    { unfold get_movie_by_id. rewrite Hmiss, Hfound. now destruct (Cache.set _ _ _ _). }
    rewrite Hrun. cbn [fst snd repository cache].
    split; [done|]. split; [done|]. split; [done|].
    intros [Hc Hr] Httl.
    destruct (set_default_ttl (cache s) (cache_key "movie" [movie_id])
                (JObject (dict movie)) Hc Hr Httl) as (Hredis & Hc1 & Hr1 & _).
    split; [exact Hredis|]. split; [done|].
    eexists. split; [rewrite Hredis; apply lookup_insert_eq|]. done.
  - intros Hmiss%misses_get Hnone. unfold get_movie_by_id. now rewrite Hmiss, Hnone.
Qed.

End Service.

(** With the repository the application wires in, no write reaches the table
    (see [create_movie_None] and its siblings): the service reports the
    failure and is left as it was, cache included. *)
Lemma wired_writes_fail {U : Unicode} {E : Engine} (s : MovieService Database) movie :
  create_movie movie_repo s movie = (s, None)
  /\ update_movie movie_repo s movie = (s, None)
  /\ delete_movie movie_repo s (id movie) = (s, false).
Proof. destruct s as [db c]. repeat split. Qed.

(** Over a repository that finds the movie, a read that misses the cache
    returns the movie and leaves it under its key with the configured
    expiry. *)
Lemma read_populates_cold_cache :
  let s := {| repository := [shawshank_movie]; cache := cold_cache |} in
  misses (cache s) "movie:shawshank-1994"
  /\ (@get_movie_by_id ascii_text _ memory_repo s "shawshank-1994").2
     = Returned (Some shawshank_movie)
  /\ redis (cache (@get_movie_by_id ascii_text _ memory_repo s "shawshank-1994").1)
       !! "movie:shawshank-1994"
     = Some {| document := Some (JObject (dict shawshank_movie)); expiry := 3600 |}.
Proof.
  cbv zeta. split; [|split].
  - intros doc (_ & e & He & _). vm_compute in He. discriminate.
  - reflexivity.
  - vm_compute. reflexivity.
Qed.



(** The service as the application wires it, with the first title in the
    cache: the read is served from the cache, where the repository itself
    finds nothing; and a title that is not in the cache is not found. *)
Lemma cache_aside_witness :
  let repo := @movie_repo ascii_text memory_engine in
  repo_get_movie_by_id repo library "shawshank-1994" = None
  /\ @get_movie_by_id ascii_text Database repo library_service "shawshank-1994"
     = (library_service, Returned (Some shawshank_movie))
  /\ @get_movie_by_id ascii_text Database repo library_service "heat-1995"
     = (library_service, Returned None).
Proof.
  cbv zeta. split; [reflexivity|].
  destruct (@get_movie_by_id_cache_aside ascii_text Database
              (@movie_repo ascii_text memory_engine) library_service "shawshank-1994")
    as (_ & Hhit & _).
  destruct (@get_movie_by_id_cache_aside ascii_text Database
              (@movie_repo ascii_text memory_engine) library_service "heat-1995")
    as (_ & _ & _ & Hmiss).
  split.
  - apply Hhit; [|reflexivity].
    split; [split; reflexivity|]. eexists. split; [reflexivity|]. split; reflexivity.
  - apply Hmiss; [|reflexivity].
    intros doc (_ & e & He & _). vm_compute in He. discriminate.
Defined.

End ServicesFacts.
